(** * reddit-api-client: a shallow embedding of the client and its checks

    The development follows the Python package [reddit_client]:

    - [config.py]: the [Config] dataclass, [Config.from_env] and
      [Config.is_authenticated];
    - [api_client.py]: [RedditClient] and its fetch, formatting and
      statistics methods;
    - [examples/*.py]: the three scripts, each with a [main].

    Conventions of the embedding.

    - A Python [str] is a [string]; its characters are the code points
      below 256.
    - A Python [int] is a [Z].  A Python [float] is represented by the
      rational number it denotes, a [Qc]; the rounding of an arithmetic
      result to binary64 and the range limit of binary64 are not modelled.
    - A [dict] with string keys is a [gmap string value].
    - Effects are explicit: a computation takes the interpreter state (the
      process environment, the lines waiting on standard input and the
      trace of events performed so far) and returns either a value or the
      exception raised, together with the new state.
    - Everything that comes from outside the package (the parsed [.env]
      file, the clock, the answers of the wrapped Reddit library) is a
      field of a [World] record, on which nothing is assumed. *)

From Stdlib Require Import ZArith QArith Qcanon String Ascii List Bool Lia.
From stdpp Require Import base option strings list gmap.

Local Open Scope string_scope.
Local Open Scope list_scope.
Local Open Scope Z_scope.

(** ** Python values and exceptions *)

Inductive value : Type :=
| VNone
| VBool (b : bool)
| VInt (n : Z)
| VFloat (x : Qc)
| VStr (s : string).

Abbreviation dict := (gmap string value).

Inductive exception : Type :=
| ValueError (msg : string)
| KeyError (key : string)
| TypeError
| ZeroDivisionError
| EOFError
| LibraryError (what : string).   (* anything the wrapped library raises *)

(** What [json.dump] is handed by the scripts. *)
Inductive dumped : Type :=
| DumpPosts (posts : list dict)
| DumpResult (result : gmap string dict).

(** ** Events and interpreter state *)

Inductive event : Type :=
| EvReadFile (path : string)             (* load_dotenv reads the env file *)
| EvRequest (endpoint : string)          (* the library queries Reddit *)
| EvNow                                  (* datetime.now() *)
| EvTrueDiv (a b : value)                (* one evaluation of the / operator *)
| EvInput (prompt : string)              (* input(prompt) *)
| EvPrint                                (* print(...); the text is not kept *)
| EvDump (path : string) (data : dumped) (* open(path, 'w') and json.dump *).

Definition is_request (e : event) : bool :=
  match e with EvRequest _ => true | _ => false end.

Definition is_truediv (e : event) : bool :=
  match e with EvTrueDiv _ _ => true | _ => false end.

Definition is_dump (e : event) : bool :=
  match e with EvDump _ _ => true | _ => false end.

Record state : Type := mkState {
  environ : gmap string string;   (* os.environ *)
  stdin : list string;            (* lines not yet read by input() *)
  trace : list event              (* oldest event first *)
}.

(** ** The computation monad *)

Definition M (A : Type) : Type := state -> (exception + A) * state.

Definition ret {A} (a : A) : M A := fun s => (inr a, s).

Definition bind {A B} (m : M A) (k : A -> M B) : M B :=
  fun s => match m s with
           | (inr a, s') => k a s'
           | (inl e, s') => (inl e, s')
           end.

Definition raise {A} (e : exception) : M A := fun s => (inl e, s).

(** [try: body except Exception as e: handler e] *)
Definition try_except {A} (body : M A) (handler : exception -> M A) : M A :=
  fun s => match body s with
           | (inr a, s') => (inr a, s')
           | (inl e, s') => handler e s'
           end.

Definition emit (e : event) : M unit :=
  fun s => (inr tt, mkState (environ s) (stdin s) (trace s ++ [e])).

Definition lift {A} (r : exception + A) : M A := fun s => (r, s).

Declare Scope py_scope.
Delimit Scope py_scope with py.
Notation "x <- m ;; k" := (bind m (fun x => k))
  (at level 100, m at next level, right associativity) : py_scope.
Notation "m ;;; k" := (bind m (fun _ => k))
  (at level 100, right associativity) : py_scope.
Local Open Scope py_scope.

(** ** The objects of the wrapped library

    Each class is a module with the attributes the package reads. *)

Module Redditor.
Record t : Type := { name : string }.
End Redditor.

Module Subreddit.
Record t : Type := {
  display_name : string;
  title : string;
  public_description : string;
  subscribers : Z;
  active_user_count : Z;
  created_utc : Qc;
  over18 : bool;
  url : string
}.
End Subreddit.

Module Submission.
Record t : Type := {
  id : string;
  title : string;
  author : option Redditor.t;
  score : Z;
  upvote_ratio : Qc;
  num_comments : Z;
  created_utc : Qc;
  url : string;
  permalink : string;
  is_self : bool;
  selftext : string;
  link_flair_text : option string;
  subreddit : Subreddit.t;
  over_18 : bool;
  spoiler : bool;
  stickied : bool
}.
End Submission.

Module Comment.
Record t : Type := {
  id : string;
  author : option Redditor.t;
  body : string;
  score : Z;
  created_utc : Qc;
  permalink : string;
  is_submitter : bool;
  parent_id : string;
  depth : Z
}.
End Comment.

Module MoreComments.
Record t : Type := { count : Z; children : list string }.
End MoreComments.

(** An entry of [submission.comments.list()]. *)
Inductive entry : Type :=
| AComment (c : Comment.t)
| AMore (m : MoreComments.t).

Record World : Type := {
  (* dotenv: the bindings parsed from the file at a path (none if absent) *)
  dotenv_values : string -> gmap string string;
  (* datetime.fromtimestamp(t).isoformat() *)
  fromtimestamp_isoformat : Qc -> string;
  (* datetime.now().isoformat() *)
  now_isoformat : string;
  (* subreddit.hot(limit=...), .new, .top, .search, fully iterated *)
  praw_hot : string -> Z -> exception + list Submission.t;
  praw_new : string -> Z -> exception + list Submission.t;
  praw_top : string -> string -> Z -> exception + list Submission.t;
  praw_search : string -> string -> string -> string -> Z
                -> exception + list Submission.t;
  (* submission.comments.list(); the flag tells whether
     replace_more(limit=0) was called before *)
  praw_comments_list : string -> bool -> exception + list entry;
  (* the attributes of reddit.subreddit(name) *)
  praw_subreddit : string -> exception + Subreddit.t
}.

(** * config.py *)

Record Config : Type := mkConfig {
  client_id : string;
  client_secret : string;
  user_agent : string;
  username : option string;
  password : option string
}.

(** Truth value of a [str] and of an [Optional[str]]. *)
Definition str_bool (s : string) : bool := negb (String.eqb s "").

Definition opt_str_bool (o : option string) : bool :=
  match o with Some s => str_bool s | None => false end.

(** [load_dotenv(env_file)]: variables of the file are added to
    [os.environ]; a variable already in the environment is kept. *)
Definition loaded_environ (w : World) (env_file : string) (s : state)
    : gmap string string :=
  environ s ∪ dotenv_values w env_file.

Definition load_dotenv (w : World) (env_file : string) : M unit :=
  fun s => (inr tt,
            mkState (loaded_environ w env_file s) (stdin s)
                    (trace s ++ [EvReadFile env_file])).

(** [os.getenv(key)] and [os.getenv(key, default)]. *)
Definition getenv (key : string) : M (option string) :=
  fun s => (inr (environ s !! key), s).

Definition getenv_default (key dflt : string) : M string :=
  fun s => (inr (default dflt (environ s !! key)), s).

Definition missing_message : string :=
  "Missing required environment variables: " +:+
  "REDDIT_CLIENT_ID and REDDIT_CLIENT_SECRET must be set".

Definition from_env (w : World) (env_file : string) : M Config :=
  load_dotenv w env_file;;;
  cid <- getenv "REDDIT_CLIENT_ID";;
  csec <- getenv "REDDIT_CLIENT_SECRET";;
  ua <- getenv_default "REDDIT_USER_AGENT" "reddit-api-client/1.0";;
  if negb (opt_str_bool cid) || negb (opt_str_bool csec) then
    raise (ValueError missing_message)
  else
    match cid, csec with
    | Some client_id, Some client_secret =>
        user <- getenv "REDDIT_USERNAME";;
        pass <- getenv "REDDIT_PASSWORD";;
        ret (mkConfig client_id client_secret ua user pass)
    | _, _ =>                      (* not reached: None is falsy *)
        raise (ValueError missing_message)
    end.

(** [bool(self.username and self.password)] *)
Definition is_authenticated (c : Config) : bool :=
  opt_str_bool (if opt_str_bool (username c) then password c
                else username c).

(** * api_client.py *)

(** The handle returned by [praw.Reddit(...)]: the arguments it was given,
    and its [read_only] attribute. *)
Record Reddit : Type := mkReddit {
  r_client_id : string;
  r_client_secret : string;
  r_user_agent : string;
  r_username : option string;
  r_password : option string;
  read_only : bool
}.

(** [praw.Reddit(client_id=..., client_secret=..., user_agent=...)], with
    or without [username=..., password=...]; a session without them starts
    read-only. *)
Definition praw_Reddit (client_id client_secret user_agent : string)
    (login : option (option string * option string)) : Reddit :=
  match login with
  | Some (username, password) =>
      mkReddit client_id client_secret user_agent username password false
  | None => mkReddit client_id client_secret user_agent None None true
  end.

(** [reddit.read_only = flag] *)
Definition set_read_only (reddit : Reddit) (flag : bool) : Reddit :=
  mkReddit (r_client_id reddit) (r_client_secret reddit) (r_user_agent reddit)
           (r_username reddit) (r_password reddit) flag.

Record RedditClient : Type := mkClient {
  config : Config;
  reddit : Reddit
}.

(** [RedditClient.__init__] *)
Definition RedditClient_init (config : Config) : RedditClient :=
  let reddit :=
    if is_authenticated config then
      praw_Reddit (client_id config) (client_secret config)
                  (user_agent config)
                  (Some (username config, password config))
    else
      praw_Reddit (client_id config) (client_secret config)
                  (user_agent config) None in
  mkClient config (set_read_only reddit true).

Definition opt_str_value (o : option string) : value :=
  match o with Some s => VStr s | None => VNone end.

(** [str(x.author) if x.author else "[deleted]"]: a Redditor object is
    truthy, and its string form is its name. *)
Definition author_field (author : option Redditor.t) : string :=
  match author with
  | Some a => Redditor.name a
  | None => "[deleted]"
  end.

Definition _format_submission (w : World) (submission : Submission.t) : dict :=
  list_to_map
    [ ("id", VStr (Submission.id submission));
      ("title", VStr (Submission.title submission));
      ("author", VStr (author_field (Submission.author submission)));
      ("score", VInt (Submission.score submission));
      ("upvote_ratio", VFloat (Submission.upvote_ratio submission));
      ("num_comments", VInt (Submission.num_comments submission));
      ("created_utc",
         VStr (fromtimestamp_isoformat w (Submission.created_utc submission)));
      ("url", VStr (Submission.url submission));
      ("permalink",
         VStr ("https://reddit.com" +:+ Submission.permalink submission));
      ("is_self", VBool (Submission.is_self submission));
      ("selftext",
         if Submission.is_self submission
         then VStr (Submission.selftext submission)
         else VNone);
      ("link_flair_text",
         opt_str_value (Submission.link_flair_text submission));
      ("subreddit",
         VStr (Subreddit.display_name (Submission.subreddit submission)));
      ("is_over18", VBool (Submission.over_18 submission));
      ("spoiler", VBool (Submission.spoiler submission));
      ("stickied", VBool (Submission.stickied submission)) ].

Definition _format_comment (w : World) (comment : Comment.t) : dict :=
  list_to_map
    [ ("id", VStr (Comment.id comment));
      ("author", VStr (author_field (Comment.author comment)));
      ("body", VStr (Comment.body comment));
      ("score", VInt (Comment.score comment));
      ("created_utc",
         VStr (fromtimestamp_isoformat w (Comment.created_utc comment)));
      ("permalink",
         VStr ("https://reddit.com" +:+ Comment.permalink comment));
      ("is_submitter", VBool (Comment.is_submitter comment));
      ("parent_id", VStr (Comment.parent_id comment));
      ("depth", VInt (Comment.depth comment)) ].

(** [posts = []; for submission in listing: posts.append(fmt(submission))] *)
Definition collect_posts (w : World) (listing : list Submission.t)
    : list dict :=
  fold_left (fun posts submission => posts ++ [_format_submission w submission])
            listing [].

Definition get_hot_posts (w : World) (self : RedditClient)
    (subreddit_name : string) (limit : Z) : M (list dict) :=
  emit (EvRequest "hot");;;
  listing <- lift (praw_hot w subreddit_name limit);;
  ret (collect_posts w listing).

Definition get_new_posts (w : World) (self : RedditClient)
    (subreddit_name : string) (limit : Z) : M (list dict) :=
  emit (EvRequest "new");;;
  listing <- lift (praw_new w subreddit_name limit);;
  ret (collect_posts w listing).

Definition get_top_posts (w : World) (self : RedditClient)
    (subreddit_name time_filter : string) (limit : Z) : M (list dict) :=
  emit (EvRequest "top");;;
  listing <- lift (praw_top w subreddit_name time_filter limit);;
  ret (collect_posts w listing).

Definition search_posts (w : World) (self : RedditClient)
    (subreddit_name query sort time_filter : string) (limit : Z)
    : M (list dict) :=
  emit (EvRequest "search");;;
  listing <- lift (praw_search w subreddit_name query sort time_filter limit);;
  ret (collect_posts w listing).

(** Truth value of an [Optional[int]]. *)
Definition opt_int_bool (o : option Z) : bool :=
  match o with Some n => negb (n =? 0) | None => false end.

(** [limit and len(comments) >= limit] *)
Definition limit_reached (limit : option Z) (comments : list dict) : bool :=
  match limit with
  | Some n => negb (n =? 0) && (Z.of_nat (length comments) >=? n)
  | None => false
  end.

(** The loop of [get_post_comments], with its [break]. *)
Fixpoint comments_loop (w : World) (limit : option Z) (listing : list entry)
    (comments : list dict) : list dict :=
  match listing with
  | [] => comments
  | AComment comment :: rest =>            (* hasattr(comment, 'body') *)
      let comments := comments ++ [_format_comment w comment] in
      if limit_reached limit comments then comments
      else comments_loop w limit rest comments
  | AMore _ :: rest => comments_loop w limit rest comments
  end.

Definition get_post_comments (w : World) (self : RedditClient)
    (post_id : string) (limit : option Z) : M (list dict) :=
  emit (EvRequest "comments");;;
  listing <- lift (praw_comments_list w post_id (opt_int_bool limit));;
  ret (comments_loop w limit listing []).

Definition get_subreddit_info (w : World) (self : RedditClient)
    (subreddit_name : string) : M dict :=
  emit (EvRequest "about");;;
  subreddit <- lift (praw_subreddit w subreddit_name);;
  ret (list_to_map
    [ ("name", VStr (Subreddit.display_name subreddit));
      ("title", VStr (Subreddit.title subreddit));
      ("description", VStr (Subreddit.public_description subreddit));
      ("subscribers", VInt (Subreddit.subscribers subreddit));
      ("active_users", VInt (Subreddit.active_user_count subreddit));
      ("created_utc",
         VStr (fromtimestamp_isoformat w (Subreddit.created_utc subreddit)));
      ("is_over18", VBool (Subreddit.over18 subreddit));
      ("url", VStr ("https://reddit.com" +:+ Subreddit.url subreddit)) ]).

(** *** Arithmetic on values *)

Definition Z2Qc (n : Z) : Qc := Q2Qc (inject_Z n).

(** The number a value stands for: [bool] is a subclass of [int]. *)
Definition as_number (v : value) : option (Z + Qc) :=
  match v with
  | VBool b => Some (inl (Z.b2z b))
  | VInt n => Some (inl n)
  | VFloat x => Some (inr x)
  | VNone | VStr _ => None
  end.

Definition to_Qc (n : Z + Qc) : Qc :=
  match n with inl z => Z2Qc z | inr x => x end.

(** [a + b] *)
Definition py_add (a b : value) : exception + value :=
  match a, b with
  | VStr x, VStr y => inr (VStr (x +:+ y))
  | _, _ =>
      match as_number a, as_number b with
      | Some (inl x), Some (inl y) => inr (VInt (x + y))
      | Some x, Some y => inr (VFloat (to_Qc x + to_Qc y)%Qc)
      | _, _ => inl TypeError
      end
  end.

(** [a / b] *)
Definition py_truediv (a b : value) : M value :=
  emit (EvTrueDiv a b);;;
  match as_number a, as_number b with
  | Some x, Some y =>
      if Qc_eq_dec (to_Qc y) (Q2Qc 0) then raise ZeroDivisionError
      else ret (VFloat (to_Qc x / to_Qc y)%Qc)
  | _, _ => raise TypeError
  end.

(** [sum(post[key] for post in posts)], the accumulator starting at [0]. *)
Fixpoint sum_from (key : string) (posts : list dict) (acc : value)
    : exception + value :=
  match posts with
  | [] => inr acc
  | post :: rest =>
      match post !! key with
      | None => inl (KeyError key)
      | Some v =>
          match py_add acc v with
          | inl e => inl e
          | inr acc => sum_from key rest acc
          end
      end
  end.

Definition sum_field (key : string) (posts : list dict) : M value :=
  lift (sum_from key posts (VInt 0)).

(** [datetime.now().isoformat()] *)
Definition now_iso (w : World) : M string :=
  emit EvNow;;;
  ret (now_isoformat w).

(** [len(posts)] *)
Definition len {A} (l : list A) : Z := Z.of_nat (length l).

(** Truth value of a list. *)
Definition list_bool {A} (l : list A) : bool :=
  match l with [] => false | _ :: _ => true end.

Definition get_subreddit_stats (w : World) (self : RedditClient)
    (subreddit_name : string) (limit : Z) : M dict :=
  posts <- get_hot_posts w self subreddit_name limit;;
  if negb (list_bool posts) then
    ret (list_to_map
      [ ("total_posts", VInt 0);
        ("total_score", VInt 0);
        ("total_comments", VInt 0);
        ("average_score", VInt 0);
        ("average_comments", VInt 0) ])
  else
    total_score <- sum_field "score" posts;;
    total_comments <- sum_field "num_comments" posts;;
    average_score <- py_truediv total_score (VInt (len posts));;
    average_comments <- py_truediv total_comments (VInt (len posts));;
    analyzed_time <- now_iso w;;
    ret (list_to_map
      [ ("total_posts", VInt (len posts));
        ("total_score", total_score);
        ("total_comments", total_comments);
        ("average_score", average_score);
        ("average_comments", average_comments);
        ("analyzed_time", VStr analyzed_time) ]).

(** * The example scripts *)

(** ** What the scripts use of the language *)

(** [input(prompt)] *)
Definition input (prompt : string) : M string :=
  fun s =>
    let s' := mkState (environ s) (List.tl (stdin s))
                      (trace s ++ [EvInput prompt]) in
    match stdin s with
    | line :: _ => (inr line, s')
    | [] => (inl EOFError, s')
    end.

Definition print : M unit := emit EvPrint.

(** [d[key]] *)
Definition getitem (d : dict) (key : string) : M value :=
  match d !! key with
  | Some v => ret v
  | None => raise (KeyError key)
  end.

(** A [print] of an f-string that reads [d[key]] for each of [keys]. *)
Fixpoint print_items (d : dict) (keys : list string) : M unit :=
  match keys with
  | [] => print
  | key :: keys => getitem d key;;; print_items d keys
  end.

(** [for x in l: body x] *)
Fixpoint for_each {A} (l : list A) (body : A -> M unit) : M unit :=
  match l with
  | [] => ret tt
  | x :: l => body x;;; for_each l body
  end.

(** White space in the sense of [str.strip()], among the code points
    below 256. *)
Definition isspace (c : ascii) : bool :=
  let n := N_of_ascii c in
  ((9 <=? n) && (n <=? 13) || (28 <=? n) && (n <=? 32)
   || (n =? 133) || (n =? 160))%N.

Fixpoint lstrip (s : string) : string :=
  match s with
  | String c rest => if isspace c then lstrip rest else s
  | EmptyString => EmptyString
  end.

Definition rstrip (s : string) : string := String.rev (lstrip (String.rev s)).

Definition strip (s : string) : string := rstrip (lstrip s).

(** [s or dflt] on strings *)
Definition str_or (s dflt : string) : string :=
  if str_bool s then s else dflt.

(** [s.replace(old, new)] for one-character [old] and [new] *)
Fixpoint replace (old new : ascii) (s : string) : string :=
  match s with
  | EmptyString => EmptyString
  | String c rest =>
      String (if Ascii.eqb c old then new else c) (replace old new rest)
  end.

(** The [try: config = Config.from_env() except ValueError as e: ...;
    return] that opens every [main]: [None] stands for the [return]. *)
Definition load_config (w : World) : M (option Config) :=
  fun s =>
    match from_env w ".env" s with
    | (inr config, s') => (inr (Some config), s')
    | (inl (ValueError e), s') =>
        (print;;; print;;; print;;; print;;; print;;; ret None) s'
    | (inl e, s') => (inl e, s')
    end.

(** The lines printed for one post. *)
Definition show_post (keys : list (list string)) (post : dict) : M unit :=
  for_each keys (print_items post);;;
  print.

Module fetch_hot_posts.

Definition output_file (subreddit_name : string) : string :=
  subreddit_name +:+ "_hot_posts.json".

Definition main (w : World) : M unit :=
  config <- load_config w;;
  match config with
  | None => ret tt
  | Some config =>
      let client := RedditClient_init config in
      let subreddit_name := "python" in
      let limit := 10 in
      print;;;
      try_except
        (posts <- get_hot_posts w client subreddit_name limit;;
         for_each posts
           (show_post [["title"]; ["author"]; ["score"; "num_comments"];
                       ["permalink"]]);;;
         emit (EvDump (output_file subreddit_name) (DumpPosts posts));;;
         print)
        (fun e => print)
  end.

End fetch_hot_posts.

Module fetch_subreddit_stats.

Definition output_file (subreddit_name : string) : string :=
  subreddit_name +:+ "_stats.json".

Definition main (w : World) : M unit :=
  config <- load_config w;;
  match config with
  | None => ret tt
  | Some config =>
      let client := RedditClient_init config in
      line <- input "Enter subreddit name (without r/): ";;
      let subreddit_name := str_or (strip line) "python" in
      let limit := 100 in
      print;;;
      try_except
        (info <- get_subreddit_info w client subreddit_name;;
         print;;;
         for_each [["title"]; ["subscribers"]; ["active_users"];
                   ["created_utc"]; ["is_over18"]; ["url"]]
                  (print_items info);;;
         print;;;
         stats <- get_subreddit_stats w client subreddit_name limit;;
         print;;;
         for_each [["total_posts"]; ["total_score"]; ["total_comments"];
                   ["average_score"]; ["average_comments"];
                   ["analyzed_time"]]
                  (print_items stats);;;
         print;;;
         let result : gmap string dict :=
           list_to_map [("subreddit_info", info); ("statistics", stats)] in
         emit (EvDump (output_file subreddit_name) (DumpResult result));;;
         print)
        (fun e => print)
  end.

End fetch_subreddit_stats.

Module search_posts_script.

Definition output_file (subreddit_name query : string) : string :=
  subreddit_name +:+ "_search_" +:+ replace " " "_" query +:+ ".json".

Definition main (w : World) : M unit :=
  config <- load_config w;;
  match config with
  | None => ret tt
  | Some config =>
      let client := RedditClient_init config in
      line <- input "Enter subreddit name (without r/): ";;
      let subreddit_name := str_or (strip line) "python" in
      line <- input "Enter search query: ";;
      let query := str_or (strip line) "machine learning" in
      let limit := 20 in
      print;;;
      try_except
        (posts <- search_posts w client subreddit_name query
                    "relevance" "all" limit;;
         if negb (list_bool posts) then
           print
         else
           for_each posts
             (show_post [["title"]; ["author"]; ["score"; "num_comments"];
                         ["created_utc"]; ["permalink"]]);;;
           emit (EvDump (output_file subreddit_name query)
                        (DumpPosts posts));;;
           print)
        (fun e => print)
  end.

End search_posts_script.


(** * Vocabulary of the statements *)

(** The events performed by running [m] from state [s]. *)
Definition performed {A} (m : M A) (s : state) : list event :=
  drop (length (trace s)) (trace (snd (m s))).

(** The state in which [from_env] leaves the interpreter: the variables
    of the env file are in the environment and the file has been read;
    nothing else has happened. *)
Definition after_from_env (w : World) (env_file : string) (s : state) : state :=
  mkState (loaded_environ w env_file s) (stdin s)
          (trace s ++ [EvReadFile env_file]).

(** The comments of a listing, in listing order, without the placeholders. *)
Fixpoint real_comments (listing : list entry) : list Comment.t :=
  match listing with
  | [] => []
  | AComment c :: rest => c :: real_comments rest
  | AMore _ :: rest => real_comments rest
  end.

(** The integer under [key] in a record, and the sum of a field over a
    batch of records. *)
Definition int_field (key : string) (post : dict) : Z :=
  match post !! key with Some (VInt n) => n | _ => 0 end.

Definition total (key : string) (posts : list dict) : Z :=
  foldr (fun post acc => int_field key post + acc) 0 posts.

(** A string has no space character. *)
Fixpoint no_space (s : string) : bool :=
  match s with
  | EmptyString => true
  | String c rest => negb (Ascii.eqb c " ") && no_space rest
  end.

(** The paths given to [json.dump] in a trace. *)
Fixpoint dump_paths (evs : list event) : list string :=
  match evs with
  | [] => []
  | EvDump path _ :: evs => path :: dump_paths evs
  | _ :: evs => dump_paths evs
  end.

(** ** Sample inputs *)

Definition boot (env : gmap string string) (lines : list string) : state :=
  mkState env lines [].

Definition credentials : gmap string string :=
  {[ "REDDIT_CLIENT_ID" := "abc"; "REDDIT_CLIENT_SECRET" := "s3cret" ]}.

Definition empty_id : gmap string string :=
  {[ "REDDIT_CLIENT_ID" := ""; "REDDIT_CLIENT_SECRET" := "s3cret" ]}.

Definition sample_config : Config :=
  mkConfig "abc" "s3cret" "reddit-api-client/1.0" None None.

Definition empty_username : Config :=
  mkConfig "abc" "s3cret" "reddit-api-client/1.0" (Some "") (Some "hunter2").

Definition sample_subreddit : Subreddit.t :=
  {| Subreddit.display_name := "ask reddit";
     Subreddit.title := "Ask";
     Subreddit.public_description := "";
     Subreddit.subscribers := 1000;
     Subreddit.active_user_count := 10;
     Subreddit.created_utc := Q2Qc 1201233135;
     Subreddit.over18 := false;
     Subreddit.url := "/r/askreddit/" |}.

Definition link_post : Submission.t :=
  {| Submission.id := "p1";
     Submission.title := "A link";
     Submission.author := Some {| Redditor.name := "alice" |};
     Submission.score := 7;
     Submission.upvote_ratio := Q2Qc (9 # 10);
     Submission.num_comments := 3;
     Submission.created_utc := Q2Qc 1700000000;
     Submission.url := "https://example.org";
     Submission.permalink := "/r/x/comments/p1/";
     Submission.is_self := false;
     Submission.selftext := "";
     Submission.link_flair_text := None;
     Submission.subreddit := sample_subreddit;
     Submission.over_18 := false;
     Submission.spoiler := false;
     Submission.stickied := false |}.

Definition self_post : Submission.t :=
  {| Submission.id := "p2";
     Submission.title := "A question";
     Submission.author := None;
     Submission.score := 4;
     Submission.upvote_ratio := Q2Qc (1 # 2);
     Submission.num_comments := 2;
     Submission.created_utc := Q2Qc 1700000100;
     Submission.url := "https://reddit.com/p2";
     Submission.permalink := "/r/x/comments/p2/";
     Submission.is_self := true;
     Submission.selftext := "Why?";
     Submission.link_flair_text := Some "Help";
     Submission.subreddit := sample_subreddit;
     Submission.over_18 := false;
     Submission.spoiler := false;
     Submission.stickied := false |}.

Definition first_comment : Comment.t :=
  {| Comment.id := "c1";
     Comment.author := Some {| Redditor.name := "bob" |};
     Comment.body := "First";
     Comment.score := 2;
     Comment.created_utc := Q2Qc 1700000200;
     Comment.permalink := "/r/x/comments/p1/_/c1/";
     Comment.is_submitter := false;
     Comment.parent_id := "t3_p1";
     Comment.depth := 0 |}.

Definition second_comment : Comment.t :=
  {| Comment.id := "c2";
     Comment.author := None;
     Comment.body := "Second";
     Comment.score := 1;
     Comment.created_utc := Q2Qc 1700000300;
     Comment.permalink := "/r/x/comments/p1/_/c2/";
     Comment.is_submitter := true;
     Comment.parent_id := "t1_c1";
     Comment.depth := 1 |}.

Definition sample_listing : list entry :=
  [ AComment first_comment;
    AMore {| MoreComments.count := 5; MoreComments.children := ["c9"] |};
    AComment second_comment ].

(** A world in which Reddit answers every query with the sample data. *)
Definition sample_world : World :=
  {| dotenv_values := fun _ => ∅;
     fromtimestamp_isoformat := fun _ => "2023-11-14T22:13:20";
     now_isoformat := "2024-01-01T00:00:00";
     praw_hot := fun _ _ => inr [link_post; self_post];
     praw_new := fun _ _ => inr [link_post; self_post];
     praw_top := fun _ _ _ => inr [link_post; self_post];
     praw_search := fun _ _ _ _ _ => inr [link_post; self_post];
     praw_comments_list := fun _ _ => inr sample_listing;
     praw_subreddit := fun _ => inr sample_subreddit |}.

(** The same world with a subreddit whose hot listing is empty. *)
Definition quiet_world : World :=
  {| dotenv_values := fun _ => ∅;
     fromtimestamp_isoformat := fun _ => "2023-11-14T22:13:20";
     now_isoformat := "2024-01-01T00:00:00";
     praw_hot := fun _ _ => inr [];
     praw_new := fun _ _ => inr [];
     praw_top := fun _ _ _ => inr [];
     praw_search := fun _ _ _ _ _ => inr [];
     praw_comments_list := fun _ _ => inr [];
     praw_subreddit := fun _ => inr sample_subreddit |}.

Definition sample_client : RedditClient := RedditClient_init sample_config.

(** Running [m] from [s] appends events to the trace, and every path it
    gives to [json.dump] satisfies [P]. *)
Definition dumps_only (P : string -> Prop) {A} (m : M A) (s : state) : Prop :=
  exists evs,
    trace (snd (m s)) = trace s ++ evs /\ Forall P (dump_paths evs).

(** The state after the five lines of guidance that a script prints when
    the configuration cannot be loaded. *)
Definition after_guidance (w : World) (s : state) : state :=
  mkState (loaded_environ w ".env" s) (stdin s)
          (trace s ++ [EvReadFile ".env";
                       EvPrint; EvPrint; EvPrint; EvPrint; EvPrint]).


(** ** Vocabulary of the further properties *)

(** The state [s] after the events [evs]. *)
Definition push (s : state) (evs : list event) : state :=
  mkState (environ s) (stdin s) (trace s ++ evs).


(** Every exception that running [m] from [s] can raise satisfies [Q]. *)
Definition raises_only (Q : exception -> Prop) {A} (m : M A) (s : state)
    : Prop :=
  forall e, fst (m s) = inl e -> Q e.




(** A world in which every query to Reddit fails. *)
Definition offline_world : World :=
  {| dotenv_values := fun _ => ∅;
     fromtimestamp_isoformat := fun _ => "2023-11-14T22:13:20";
     now_isoformat := "2024-01-01T00:00:00";
     praw_hot := fun _ _ => inl (LibraryError "offline");
     praw_new := fun _ _ => inl (LibraryError "offline");
     praw_top := fun _ _ _ => inl (LibraryError "offline");
     praw_search := fun _ _ _ _ _ => inl (LibraryError "offline");
     praw_comments_list := fun _ _ => inl (LibraryError "offline");
     praw_subreddit := fun _ => inl (LibraryError "offline") |}.

Definition login_environment : gmap string string :=
  {[ "REDDIT_CLIENT_ID" := "abc"; "REDDIT_CLIENT_SECRET" := "s3cret";
     "REDDIT_USERNAME" := "alice"; "REDDIT_PASSWORD" := "hunter2" ]}.

Definition half_login : Config :=
  mkConfig "abc" "s3cret" "reddit-api-client/1.0" (Some "alice") None.



(** What a trace gives to [json.dump], and the requests it sends. *)
Fixpoint dumps (evs : list event) : list (string * dumped) :=
  match evs with
  | [] => []
  | EvDump path data :: evs => (path, data) :: dumps evs
  | _ :: evs => dumps evs
  end.

Fixpoint requests (evs : list event) : list string :=
  match evs with
  | [] => []
  | EvRequest endpoint :: evs => endpoint :: requests evs
  | _ :: evs => requests evs
  end.

(** The state [s] after [input(prompt)] has taken a line. *)
Definition consume (s : state) (prompt : string) : state :=
  mkState (environ s) (List.tl (stdin s)) (trace s ++ [EvInput prompt]).


(** First and last character of a string, and strings of white space. *)
Definition head_char (s : string) : option ascii :=
  match s with
  | EmptyString => None
  | String c _ => Some c
  end.

Fixpoint last_char (s : string) : option ascii :=
  match s with
  | EmptyString => None
  | String c EmptyString => Some c
  | String _ rest => last_char rest
  end.

Fixpoint all_space (s : string) : bool :=
  match s with
  | EmptyString => true
  | String c rest => isspace c && all_space rest
  end.

(** The subreddit name the interactive scripts derive from a line. *)
Definition subreddit_name_of (line : string) : string :=
  str_or (strip line) "python".

(** * Properties *)

(** ** Running computations *)

Ltac unfold_M :=
  unfold bind, ret, raise, lift, emit, try_except, getenv, getenv_default,
         load_dotenv in *.

Lemma str_bool_true (s : string) : str_bool s = true <-> s <> "".
Proof.
  unfold str_bool. rewrite negb_true_iff.
  destruct (String.eqb_spec s ""); split; congruence.
Qed.

Lemma str_bool_false (s : string) : str_bool s = false <-> s = "".
Proof.
  unfold str_bool. rewrite negb_false_iff. apply String.eqb_eq.
Qed.

Lemma opt_str_bool_true (o : option string) :
  opt_str_bool o = true <-> exists s, o = Some s /\ s <> "".
Proof.
  destruct o as [s|]; simpl.
  - rewrite str_bool_true. split.
    + intros H. exists s. auto.
    + intros (s' & [= ->] & H). exact H.
  - split; [discriminate | intros (s & [=] & _)].
Qed.

Lemma opt_str_bool_false (o : option string) :
  opt_str_bool o = false <-> o = None \/ o = Some "".
Proof.
  destruct o as [s|]; simpl.
  - rewrite str_bool_false. split.
    + intros ->. now right.
    + intros [[=] | [= ->]]. reflexivity.
  - split; auto.
Qed.

(** ** config.py *)

Section Config_facts.

Variable w : World.
Variable env_file : string.

Local Abbreviation env s := (loaded_environ w env_file s).

Lemma from_env_raises (s : state) :
  opt_str_bool (env s !! "REDDIT_CLIENT_ID") = false \/
  opt_str_bool (env s !! "REDDIT_CLIENT_SECRET") = false ->
  from_env w env_file s =
    (inl (ValueError missing_message), after_from_env w env_file s).
Proof.
  intros H. unfold from_env, after_from_env. unfold_M. simpl.
  destruct H as [-> | ->]; simpl; [reflexivity|].
  rewrite orb_true_r. reflexivity.
Qed.

Lemma from_env_returns (s : state) (cid csec : string) :
  env s !! "REDDIT_CLIENT_ID" = Some cid ->
  env s !! "REDDIT_CLIENT_SECRET" = Some csec ->
  cid <> "" -> csec <> "" ->
  from_env w env_file s =
    (inr (mkConfig cid csec
            (default "reddit-api-client/1.0" (env s !! "REDDIT_USER_AGENT"))
            (env s !! "REDDIT_USERNAME")
            (env s !! "REDDIT_PASSWORD")),
     after_from_env w env_file s).
Proof.
  intros Hid Hsec Hi Hc. unfold from_env, after_from_env. unfold_M. simpl.
  rewrite Hid, Hsec. simpl.
  apply str_bool_true in Hi, Hc. rewrite Hi, Hc. reflexivity.
Qed.



(** C10.  An empty credential counts as an absent one: [from_env] raises
    the configuration error when REDDIT_CLIENT_ID or REDDIT_CLIENT_SECRET
    is set to the empty string, and [is_authenticated] is false when the
    username or the password is the empty string, although the field is
    set. *)
Theorem empty_credentials_absent (s : state) (c : Config) :
  ((env s !! "REDDIT_CLIENT_ID" = Some "" \/
    env s !! "REDDIT_CLIENT_SECRET" = Some "") ->
   exists s', from_env w env_file s = (inl (ValueError missing_message), s'))
  /\
  ((username c = Some "" \/ password c = Some "") ->
   is_authenticated c = false).
Proof.
  split.
  - intros H. eexists. apply from_env_raises.
    rewrite !opt_str_bool_false. tauto.
  - unfold is_authenticated. intros [-> | ->]; simpl; [reflexivity|].
    destruct (opt_str_bool (username c)) eqn:E; [reflexivity | exact E].
Qed.

End Config_facts.

Lemma is_authenticated_and (c : Config) :
  is_authenticated c = opt_str_bool (username c) && opt_str_bool (password c).
Proof.
  unfold is_authenticated. destruct (opt_str_bool (username c)) eqn:E; auto.
Qed.



Lemma empty_credentials_absent_witness :
  (exists s', from_env sample_world ".env" (boot empty_id []) =
                (inl (ValueError missing_message), s')) /\
  is_authenticated empty_username = false.
Proof.
  split.
  - apply (proj1 (empty_credentials_absent sample_world ".env"
                    (boot empty_id []) empty_username)).
    left. reflexivity.
  - apply (proj2 (empty_credentials_absent sample_world ".env"
                    (boot empty_id []) empty_username)).
    left. reflexivity.
Defined.

(** C2, as stated, fails: a username set to the empty string is present,
    and [is_authenticated] is false. *)
Lemma is_authenticated_present_but_false :
  is_Some (username empty_username) /\ is_Some (password empty_username) /\
  is_authenticated empty_username = false.
Proof. repeat split; eexists; reflexivity. Qed.

(** C2, as amended.  [is_authenticated] is true exactly when the username
    and the password are both present and not empty, and two
    configurations with the same username and password agree on it. *)
Theorem is_authenticated_spec (c : Config) :
  (is_authenticated c = true <->
   exists user pass,
     username c = Some user /\ password c = Some pass /\
     user <> "" /\ pass <> "")
  /\
  (forall c', username c' = username c -> password c' = password c ->
              is_authenticated c' = is_authenticated c).
Proof.
  split.
  - rewrite is_authenticated_and, andb_true_iff, !opt_str_bool_true. split.
    + intros [(u & Hu & Hune) (p & Hp & Hpne)]. exists u, p. auto.
    + intros (u & p & Hu & Hp & Hune & Hpne). split; eauto.
  - intros c' Hu Hp. unfold is_authenticated. now rewrite Hu, Hp.
Qed.

Lemma is_authenticated_spec_witness :
  is_authenticated (mkConfig "x" "y" "z" (Some "") (Some "hunter2")) =
    is_authenticated empty_username /\
  is_authenticated (mkConfig "a" "b" "c" (Some "u") (Some "p")) = true.
Proof.
  split.
  - apply (proj2 (is_authenticated_spec empty_username)
                   (mkConfig "x" "y" "z" (Some "") (Some "hunter2")));
      reflexivity.
  - apply (proj1 (is_authenticated_spec
                    (mkConfig "a" "b" "c" (Some "u") (Some "p")))).
    exists "u", "p". repeat split; discriminate.
Defined.

(** ** api_client.py: formatting *)

Lemma collect_posts_map (w : World) (listing : list Submission.t) :
  collect_posts w listing = map (_format_submission w) listing.
Proof.
  unfold collect_posts.
  enough (H : forall acc,
             fold_left (fun posts submission =>
                          posts ++ [_format_submission w submission])
                       listing acc
             = acc ++ map (_format_submission w) listing)
    by apply (H []).
  induction listing as [|x l IH]; intros acc; simpl.
  - now rewrite app_nil_r.
  - rewrite IH, <- app_assoc. reflexivity.
Qed.

(** C6.  The author field of a formatted submission, and of a formatted
    comment, is the sentinel "[deleted]" when the author of the source
    object is null, and the string form of the author (the name)
    otherwise. *)
Theorem author_or_deleted (w : World) (submission : Submission.t)
    (comment : Comment.t) :
  _format_submission w submission !! "author" =
    Some (VStr (match Submission.author submission with
                | None => "[deleted]"
                | Some a => Redditor.name a
                end))
  /\
  _format_comment w comment !! "author" =
    Some (VStr (match Comment.author comment with
                | None => "[deleted]"
                | Some a => Redditor.name a
                end)).
Proof.
  split.
  - destruct (Submission.author submission) eqn:E;
      change (_format_submission w submission !! "author")
        with (Some (VStr (author_field (Submission.author submission))));
      now rewrite E.
  - destruct (Comment.author comment) eqn:E;
      change (_format_comment w comment !! "author")
        with (Some (VStr (author_field (Comment.author comment))));
      now rewrite E.
Qed.

(** C8.  In the record of a formatted submission, selftext is None when
    the submission is not a self-post, and the selftext of the submission
    when it is one. *)
Theorem selftext_only_for_self_posts (w : World) (submission : Submission.t) :
  (Submission.is_self submission = false ->
   _format_submission w submission !! "selftext" = Some VNone)
  /\
  (Submission.is_self submission = true ->
   _format_submission w submission !! "selftext" =
     Some (VStr (Submission.selftext submission))).
Proof.
  split; intros H;
    change (_format_submission w submission !! "selftext")
      with (Some (if Submission.is_self submission
                  then VStr (Submission.selftext submission) else VNone));
    now rewrite H.
Qed.

Lemma selftext_only_for_self_posts_witness :
  _format_submission sample_world link_post !! "selftext" = Some VNone /\
  _format_submission sample_world self_post !! "selftext" =
    Some (VStr "Why?").
Proof.
  split.
  - apply (proj1 (selftext_only_for_self_posts sample_world link_post)).
    reflexivity.
  - apply (proj2 (selftext_only_for_self_posts sample_world self_post)).
    reflexivity.
Defined.

Lemma format_submission_score (w : World) (submission : Submission.t) :
  int_field "score" (_format_submission w submission)
  = Submission.score submission.
Proof. reflexivity. Qed.

Lemma format_submission_num_comments (w : World) (submission : Submission.t) :
  int_field "num_comments" (_format_submission w submission)
  = Submission.num_comments submission.
Proof. reflexivity. Qed.

(** ** api_client.py: fetching *)

Lemma performed_app {A} (m : M A) (s : state) (evs : list event) :
  trace (snd (m s)) = trace s ++ evs -> performed m s = evs.
Proof.
  intros H. unfold performed. rewrite H. apply drop_app_length.
Qed.

Lemma get_hot_posts_ok (w : World) (self : RedditClient)
    (subreddit_name : string) (limit : Z) (s : state)
    (listing : list Submission.t) :
  praw_hot w subreddit_name limit = inr listing ->
  get_hot_posts w self subreddit_name limit s =
    (inr (map (_format_submission w) listing),
     mkState (environ s) (stdin s) (trace s ++ [EvRequest "hot"])).
Proof.
  intros H. unfold get_hot_posts. unfold_M. simpl.
  now rewrite H, collect_posts_map.
Qed.

(** ** api_client.py: statistics *)

Lemma Z2Qc_nonzero (n : Z) : n <> 0 -> Z2Qc n <> Q2Qc 0.
Proof.
  intros Hn H. apply Hn. unfold Z2Qc in H.
  apply Q2Qc_eq_iff in H. now apply (inject_Z_injective n 0).
Qed.

Lemma len_nonzero {A} (l : list A) : l <> [] -> len l <> 0.
Proof. destruct l; [congruence | unfold len; simpl; lia]. Qed.


Lemma sum_from_ints (key : string) (posts : list dict) (acc : Z) :
  Forall (fun post : dict => exists n, post !! key = Some (VInt n)) posts ->
  sum_from key posts (VInt acc) = inr (VInt (acc + total key posts)).
Proof.
  intros H. revert acc. induction H as [|post posts [n Hn] _ IH]; intros acc.
  - simpl. now rewrite Z.add_0_r.
  - simpl. rewrite Hn. simpl. rewrite IH. unfold int_field. rewrite Hn.
    now rewrite Z.add_assoc.
Qed.

Lemma formatted_have_ints (w : World) (listing : list Submission.t) :
  Forall (fun post : dict => exists n, post !! "score" = Some (VInt n))
         (map (_format_submission w) listing) /\
  Forall (fun post : dict => exists n, post !! "num_comments" = Some (VInt n))
         (map (_format_submission w) listing).
Proof.
  split; apply Forall_map, Forall_forall; intros x _; eexists; reflexivity.
Qed.

Lemma py_truediv_ints (a n : Z) (s : state) :
  n <> 0 ->
  py_truediv (VInt a) (VInt n) s =
    (inr (VFloat (Z2Qc a / Z2Qc n)%Qc),
     mkState (environ s) (stdin s) (trace s ++ [EvTrueDiv (VInt a) (VInt n)])).
Proof.
  intros Hn. unfold py_truediv. unfold_M. simpl.
  destruct (Qc_eq_dec (Z2Qc n) (Q2Qc 0)) as [E|_]; [|reflexivity].
  now apply Z2Qc_nonzero in E.
Qed.

Section Stats_facts.

Variable w : World.
Variable self : RedditClient.
Variable subreddit_name : string.
Variable limit : Z.

Local Abbreviation stats := (get_subreddit_stats w self subreddit_name limit).

(** The record and the events of a call that fetched a non-empty batch. *)
Lemma stats_nonempty_run (s : state) (listing : list Submission.t) :
  praw_hot w subreddit_name limit = inr listing -> listing <> [] ->
  let posts := map (_format_submission w) listing in
  let ts := total "score" posts in
  let tc := total "num_comments" posts in
  stats s =
    (inr (list_to_map
            [ ("total_posts", VInt (len posts));
              ("total_score", VInt ts);
              ("total_comments", VInt tc);
              ("average_score", VFloat (Z2Qc ts / Z2Qc (len posts))%Qc);
              ("average_comments", VFloat (Z2Qc tc / Z2Qc (len posts))%Qc);
              ("analyzed_time", VStr (now_isoformat w)) ]),
     mkState (environ s) (stdin s)
       (trace s ++ [ EvRequest "hot";
                     EvTrueDiv (VInt ts) (VInt (len posts));
                     EvTrueDiv (VInt tc) (VInt (len posts));
                     EvNow ])).
Proof.
  intros Hhot Hne posts ts tc.
  assert (Hlen : len posts <> 0).
  { apply len_nonzero. subst posts. destruct listing; simpl; congruence. }
  destruct (formatted_have_ints w listing) as [Hs Hc].
  unfold get_subreddit_stats, bind at 1.
  rewrite (get_hot_posts_ok w self _ _ s listing Hhot). fold posts.
  assert (Hb : negb (list_bool posts) = false).
  { subst posts. destruct listing; [congruence | reflexivity]. }
  rewrite Hb. unfold sum_field, lift, bind at 1.
  rewrite (sum_from_ints "score" posts 0 Hs). fold ts.
  unfold bind at 1. rewrite (sum_from_ints "num_comments" posts 0 Hc).
  fold tc. simpl (0 + _).
  unfold bind at 1. rewrite py_truediv_ints by exact Hlen.
  unfold bind at 1. rewrite py_truediv_ints by exact Hlen.
  unfold now_iso, bind, emit, ret. simpl.
  rewrite <- !app_assoc. reflexivity.
Qed.

(** The record and the events of a call that fetched an empty batch. *)
Lemma stats_empty_run (s : state) :
  praw_hot w subreddit_name limit = inr [] ->
  stats s =
    (inr (list_to_map
            [ ("total_posts", VInt 0);
              ("total_score", VInt 0);
              ("total_comments", VInt 0);
              ("average_score", VInt 0);
              ("average_comments", VInt 0) ]),
     mkState (environ s) (stdin s) (trace s ++ [EvRequest "hot"])).
Proof.
  intros Hhot. unfold get_subreddit_stats, bind at 1.
  rewrite (get_hot_posts_ok w self _ _ s [] Hhot). reflexivity.
Qed.


(** C3.  When the fetched batch is empty, [get_subreddit_stats] returns
    a record whose total_posts, total_score, total_comments,
    average_score and average_comments are all zero, and the call
    performs no division. *)
Theorem stats_of_empty_batch (s : state) :
  fst (get_hot_posts w self subreddit_name limit s) = inr [] ->
  exists r s',
    stats s = (inr r, s') /\
    r !! "total_posts" = Some (VInt 0) /\
    r !! "total_score" = Some (VInt 0) /\
    r !! "total_comments" = Some (VInt 0) /\
    r !! "average_score" = Some (VInt 0) /\
    r !! "average_comments" = Some (VInt 0) /\
    filter is_truediv (performed stats s) = [].
Proof.
  intros Hfetch.
  assert (Hhot : praw_hot w subreddit_name limit = inr []).
  { unfold get_hot_posts in Hfetch. unfold_M. simpl in Hfetch.
    destruct (praw_hot w subreddit_name limit) as [e|l]; [discriminate|].
    rewrite collect_posts_map in Hfetch. simpl in Hfetch.
    destruct l; [reflexivity | discriminate]. }
  do 2 eexists. rewrite (stats_empty_run s Hhot).
  split; [reflexivity|]. repeat (split; [reflexivity|]).
  rewrite (performed_app stats s [EvRequest "hot"]); [reflexivity|].
  now rewrite (stats_empty_run s Hhot).
Qed.


End Stats_facts.

Lemma stats_of_empty_batch_witness :
  exists r s',
    get_subreddit_stats quiet_world sample_client "python" 100
      (boot credentials []) = (inr r, s') /\
    r !! "total_posts" = Some (VInt 0) /\
    r !! "total_score" = Some (VInt 0) /\
    r !! "total_comments" = Some (VInt 0) /\
    r !! "average_score" = Some (VInt 0) /\
    r !! "average_comments" = Some (VInt 0) /\
    filter is_truediv
      (performed (get_subreddit_stats quiet_world sample_client "python" 100)
                 (boot credentials [])) = [].
Proof.
  apply (stats_of_empty_batch quiet_world sample_client "python" 100
           (boot credentials [])).
  reflexivity.
Defined.


(** ** api_client.py: comments *)

Section Comments_facts.

Variable w : World.

(** Without an effective limit the loop never breaks. *)
Lemma comments_loop_unlimited (limit : option Z) (listing : list entry)
    (comments : list dict) :
  opt_int_bool limit = false ->
  comments_loop w limit listing comments =
    comments ++ map (_format_comment w) (real_comments listing).
Proof.
  intros Hl.
  assert (Hr : forall cs, limit_reached limit cs = false).
  { intros cs. destruct limit as [n|]; simpl in *; [|reflexivity].
    now rewrite Hl. }
  revert comments.
  induction listing as [|[c|m] rest IH]; intros comments; simpl.
  - now rewrite app_nil_r.
  - rewrite Hr, IH, <- app_assoc. reflexivity.
  - apply IH.
Qed.


Variable self : RedditClient.
Variable post_id : string.



(** A limit of zero is falsy and so acts as no limit. *)
Lemma get_post_comments_zero_limit (s : state) (listing : list entry) :
  praw_comments_list w post_id false = inr listing ->
  fst (get_post_comments w self post_id (Some 0) s) =
    inr (map (_format_comment w) (real_comments listing)).
Proof.
  intros Hlist. unfold get_post_comments. unfold_M. simpl.
  rewrite Hlist. simpl. now rewrite comments_loop_unlimited.
Qed.

End Comments_facts.




(** ** The example scripts *)

Lemma dump_paths_app (a b : list event) :
  dump_paths (a ++ b) = dump_paths a ++ dump_paths b.
Proof.
  induction a as [|e a IH]; simpl; [reflexivity|].
  destruct e; simpl; now rewrite ?IH.
Qed.

Section Dump_logic.

Variable P : string -> Prop.

Lemma dumps_nothing {A} (m : M A) (s : state) :
  trace (snd (m s)) = trace s -> dumps_only P m s.
Proof.
  intros H. exists []. rewrite app_nil_r. split; [exact H | constructor].
Qed.

Lemma dumps_ret {A} (a : A) (s : state) : dumps_only P (ret a) s.
Proof. now apply dumps_nothing. Qed.

Lemma dumps_raise {A} (e : exception) (s : state) :
  dumps_only P (@raise A e) s.
Proof. now apply dumps_nothing. Qed.

Lemma dumps_lift {A} (r : exception + A) (s : state) :
  dumps_only P (lift r) s.
Proof. now apply dumps_nothing. Qed.

Lemma dumps_emit (e : event) (s : state) :
  Forall P (dump_paths [e]) -> dumps_only P (emit e) s.
Proof. intros H. exists [e]. split; [reflexivity | exact H]. Qed.

Lemma dumps_bind {A B} (m : M A) (k : A -> M B) (s : state) :
  dumps_only P m s ->
  (forall a s1, m s = (inr a, s1) -> dumps_only P (k a) s1) ->
  dumps_only P (bind m k) s.
Proof.
  intros (e1 & H1 & F1) Hk. unfold dumps_only, bind.
  destruct (m s) as [[e|a] s1] eqn:E; simpl in H1.
  - exists e1. simpl. auto.
  - destruct (Hk a s1 eq_refl) as (e2 & H2 & F2).
    exists (e1 ++ e2). split.
    + rewrite H2, H1. now rewrite <- app_assoc.
    + rewrite dump_paths_app. now apply Forall_app.
Qed.

Lemma dumps_try_except {A} (body : M A) (handler : exception -> M A)
    (s : state) :
  dumps_only P body s ->
  (forall e s1, dumps_only P (handler e) s1) ->
  dumps_only P (try_except body handler) s.
Proof.
  intros (e1 & H1 & F1) Hh. unfold dumps_only, try_except.
  destruct (body s) as [[e|a] s1] eqn:E; simpl in H1.
  - destruct (Hh e s1) as (e2 & H2 & F2).
    exists (e1 ++ e2). split.
    + rewrite H2, H1. now rewrite <- app_assoc.
    + rewrite dump_paths_app. now apply Forall_app.
  - exists e1. simpl. auto.
Qed.

Lemma dumps_print (s : state) : dumps_only P print s.
Proof. apply dumps_emit. constructor. Qed.

Lemma dumps_getitem (d : dict) (key : string) (s : state) :
  dumps_only P (getitem d key) s.
Proof. unfold getitem. destruct (d !! key); now apply dumps_nothing. Qed.

Lemma dumps_print_items (d : dict) (keys : list string) (s : state) :
  dumps_only P (print_items d keys) s.
Proof.
  revert s. induction keys as [|k keys IH]; intros s; simpl.
  - apply dumps_print.
  - apply dumps_bind; [apply dumps_getitem | intros; apply IH].
Qed.

Lemma dumps_for_each {A} (l : list A) (body : A -> M unit) (s : state) :
  (forall x s1, dumps_only P (body x) s1) ->
  dumps_only P (for_each l body) s.
Proof.
  intros Hb. revert s. induction l as [|x l IH]; intros s; simpl.
  - apply dumps_ret.
  - apply dumps_bind; [apply Hb | intros; apply IH].
Qed.

Lemma dumps_show_post (keys : list (list string)) (post : dict) (s : state) :
  dumps_only P (show_post keys post) s.
Proof.
  unfold show_post. apply dumps_bind.
  - apply dumps_for_each. intros. apply dumps_print_items.
  - intros. apply dumps_print.
Qed.

Lemma dumps_input (prompt : string) (s : state) :
  dumps_only P (input prompt) s.
Proof.
  exists [EvInput prompt]. split; [|constructor].
  unfold input. now destruct (stdin s).
Qed.

(** A fetch sends a request, and writes no file. *)
Lemma dumps_fetch {A B} (endpoint : string) (answer : exception + A)
    (k : A -> B) (s : state) :
  dumps_only P (bind (emit (EvRequest endpoint))
                  (fun _ => bind (lift answer) (fun a => ret (k a)))) s.
Proof.
  apply dumps_bind; [apply dumps_emit; constructor|]. intros.
  apply dumps_bind; [apply dumps_lift|]. intros. apply dumps_ret.
Qed.

Lemma dumps_py_truediv (a b : value) (s : state) :
  dumps_only P (py_truediv a b) s.
Proof.
  unfold py_truediv. apply dumps_bind; [apply dumps_emit; constructor|].
  intros. destruct (as_number a), (as_number b);
    try apply dumps_raise.
  destruct (Qc_eq_dec _ _); [apply dumps_raise | apply dumps_ret].
Qed.

Lemma dumps_get_subreddit_stats (w : World) (self : RedditClient)
    (subreddit_name : string) (limit : Z) (s : state) :
  dumps_only P (get_subreddit_stats w self subreddit_name limit) s.
Proof.
  unfold get_subreddit_stats.
  apply dumps_bind; [apply dumps_fetch|]. intros posts s1 _.
  destruct (negb (list_bool posts)); [apply dumps_ret|].
  apply dumps_bind; [apply dumps_lift|]. intros.
  apply dumps_bind; [apply dumps_lift|]. intros.
  apply dumps_bind; [apply dumps_py_truediv|]. intros.
  apply dumps_bind; [apply dumps_py_truediv|]. intros.
  apply dumps_bind; [|intros; apply dumps_ret].
  unfold now_iso. apply dumps_bind; [apply dumps_emit; constructor|].
  intros. apply dumps_ret.
Qed.

End Dump_logic.

(** What [load_config] does, in the two cases of [from_env]. *)
Lemma load_config_run (w : World) (s : state) :
  (exists config,
     from_env w ".env" s = (inr config, after_from_env w ".env" s) /\
     load_config w s = (inr (Some config), after_from_env w ".env" s))
  \/
  (from_env w ".env" s =
     (inl (ValueError missing_message), after_from_env w ".env" s) /\
   load_config w s = (inr None, after_guidance w s)).
Proof.
  unfold load_config.
  destruct (opt_str_bool (loaded_environ w ".env" s !! "REDDIT_CLIENT_ID"))
    eqn:Hi;
    [destruct (opt_str_bool
                 (loaded_environ w ".env" s !! "REDDIT_CLIENT_SECRET"))
       eqn:Hc|].
  - apply opt_str_bool_true in Hi as (cid & Hi & Hine).
    apply opt_str_bool_true in Hc as (csec & Hc & Hcne).
    left. rewrite (from_env_returns w ".env" s cid csec) by assumption.
    eexists. split; reflexivity.
  - right. rewrite from_env_raises by auto. split; [reflexivity|].
    unfold after_guidance. unfold print. unfold_M. simpl.
    rewrite <- !app_assoc. reflexivity.
  - right. rewrite from_env_raises by auto. split; [reflexivity|].
    unfold after_guidance. unfold print. unfold_M. simpl.
    rewrite <- !app_assoc. reflexivity.
Qed.

Lemma dumps_load_config (P : string -> Prop) (w : World) (s : state) :
  dumps_only P (load_config w) s.
Proof.
  destruct (load_config_run w s) as [(config & _ & H) | [_ H]];
    eexists; rewrite H; (split; [reflexivity | constructor]).
Qed.

Lemma load_config_stdin (w : World) (s s1 : state)
    (r : exception + option Config) :
  load_config w s = (r, s1) -> stdin s1 = stdin s.
Proof.
  destruct (load_config_run w s) as [(config & _ & H) | [_ H]];
    rewrite H; intros [= _ <-]; reflexivity.
Qed.

Lemma input_line (prompt : string) (s s1 : state) (line : string) :
  input prompt s = (inr line, s1) ->
  stdin s = line :: stdin s1.
Proof.
  unfold input. destruct (stdin s) as [|l rest]; intros [= <- <-].
  reflexivity.
Qed.

Lemma dumps_only_performed (P : string -> Prop) {A} (m : M A) (s : state) :
  dumps_only P m s -> Forall P (dump_paths (performed m s)).
Proof.
  intros (evs & H & F). now rewrite (performed_app m s evs H).
Qed.

Lemma replace_no_space (s : string) : no_space (replace " " "_" s) = true.
Proof.
  induction s as [|c s IH]; simpl; [reflexivity|].
  rewrite IH, andb_true_r.
  destruct (Ascii.eqb_spec c " ") as [->|Hc]; [reflexivity|].
  apply negb_true_iff. now apply Ascii.eqb_neq.
Qed.

Lemma replace_length (old new : ascii) (s : string) :
  String.length (replace old new s) = String.length s.
Proof. induction s; simpl; congruence. Qed.

Ltac dumps_step :=
  first
    [ apply dumps_ret | apply dumps_print | apply dumps_fetch
    | apply dumps_show_post | apply dumps_print_items
    | apply dumps_get_subreddit_stats | apply dumps_load_config
    | apply dumps_input
    | apply dumps_for_each; intros
    | apply dumps_try_except; [|intros]
    | apply dumps_bind; [|intros] ].

Section Script_facts.

Variable w : World.

Lemma hot_posts_dumps (s : state) :
  dumps_only (fun path => path = "python_hot_posts.json")
             (fetch_hot_posts.main w) s.
Proof.
  unfold fetch_hot_posts.main, get_hot_posts.
  apply dumps_bind; [apply dumps_load_config|].
  intros [config|] s1 _; [|apply dumps_ret]. cbv zeta.
  apply dumps_bind; [apply dumps_print|]. intros _ s2 _.
  apply dumps_try_except; [|intros; apply dumps_print].
  apply dumps_bind; [apply dumps_fetch|]. intros posts s3 _.
  apply dumps_bind; [repeat dumps_step|]. intros _ s4 _.
  apply dumps_bind; [|intros; apply dumps_print].
  apply dumps_emit. repeat constructor.
Qed.

Lemma stats_dumps (s : state) (line : string) (rest : list string) :
  stdin s = line :: rest ->
  dumps_only
    (fun path => path = str_or (strip line) "python" +:+ "_stats.json")
    (fetch_subreddit_stats.main w) s.
Proof.
  intros Hin. unfold fetch_subreddit_stats.main, get_subreddit_info.
  apply dumps_bind; [apply dumps_load_config|].
  intros [config|] s1 H1; [|apply dumps_ret]. cbv zeta.
  apply load_config_stdin in H1.
  apply dumps_bind; [apply dumps_input|]. intros line' s2 H2.
  apply input_line in H2. rewrite H1, Hin in H2.
  injection H2 as <- _.
  apply dumps_bind; [apply dumps_print|]. intros _ s3 _.
  apply dumps_try_except; [|intros; apply dumps_print].
  apply dumps_bind; [apply dumps_fetch|]. intros info s4 _.
  do 3 (apply dumps_bind; [repeat dumps_step|]; intros _ ? _).
  apply dumps_bind; [apply dumps_get_subreddit_stats|]. intros stats ? _.
  do 3 (apply dumps_bind; [repeat dumps_step|]; intros _ ? _).
  apply dumps_bind; [|intros; apply dumps_print].
  apply dumps_emit. repeat constructor.
Qed.

Lemma search_dumps (s : state) (line1 line2 : string) (rest : list string) :
  stdin s = line1 :: line2 :: rest ->
  dumps_only
    (fun path =>
       path = str_or (strip line1) "python" +:+ "_search_" +:+
              replace " " "_" (str_or (strip line2) "machine learning")
              +:+ ".json")
    (search_posts_script.main w) s.
Proof.
  intros Hin. unfold search_posts_script.main, search_posts.
  apply dumps_bind; [apply dumps_load_config|].
  intros [config|] s1 H1; [|apply dumps_ret]. cbv zeta.
  apply load_config_stdin in H1.
  apply dumps_bind; [apply dumps_input|]. intros l1 s2 H2.
  apply input_line in H2. rewrite H1, Hin in H2.
  injection H2 as <- H2.
  apply dumps_bind; [apply dumps_input|]. intros l2 s3 H3.
  apply input_line in H3. rewrite <- H2 in H3. injection H3 as <- _.
  apply dumps_bind; [apply dumps_print|]. intros _ s4 _.
  apply dumps_try_except; [|intros; apply dumps_print].
  apply dumps_bind; [apply dumps_fetch|]. intros posts s5 _.
  destruct (negb (list_bool posts)); [apply dumps_print|].
  apply dumps_bind; [repeat dumps_step|]. intros _ s6 _.
  apply dumps_bind; [|intros; apply dumps_print].
  apply dumps_emit. repeat constructor.
Qed.

(** C9, as amended.  Every path a script gives to [json.dump] is built
    from the subreddit name as it is: "python_hot_posts.json" for the
    hot-posts script, the name followed by "_stats.json" for the
    statistics script, and for the search script the name followed by
    "_search_", the query with every space replaced by an underscore,
    and ".json".  The name and the query are the lines read from
    standard input, stripped, or their defaults when that is empty. *)
Theorem output_file_names (s : state) :
  Forall (fun path => path = "python_hot_posts.json")
         (dump_paths (performed (fetch_hot_posts.main w) s))
  /\
  (forall line rest,
     stdin s = line :: rest ->
     let subreddit_name := str_or (strip line) "python" in
     Forall (fun path => path = subreddit_name +:+ "_stats.json")
            (dump_paths (performed (fetch_subreddit_stats.main w) s)))
  /\
  (forall line1 line2 rest,
     stdin s = line1 :: line2 :: rest ->
     let subreddit_name := str_or (strip line1) "python" in
     let query := str_or (strip line2) "machine learning" in
     Forall (fun path =>
               path = subreddit_name +:+ "_search_" +:+
                      replace " " "_" query +:+ ".json")
            (dump_paths (performed (search_posts_script.main w) s)) /\
     no_space (replace " " "_" query) = true).
Proof.
  split; [|split].
  - apply dumps_only_performed, hot_posts_dumps.
  - intros line rest Hin. cbv zeta.
    now apply dumps_only_performed, (stats_dumps s line rest).
  - intros line1 line2 rest Hin. cbv zeta. split.
    + now apply dumps_only_performed, (search_dumps s line1 line2 rest).
    + apply replace_no_space.
Qed.

(** When the configuration cannot be loaded, a script prints its
    guidance and returns: it sends no request and writes no file. *)
Lemma scripts_without_credentials (s : state) :
  fst (from_env w ".env" s) = inl (ValueError missing_message) ->
  fetch_hot_posts.main w s = (inr tt, after_guidance w s) /\
  fetch_subreddit_stats.main w s = (inr tt, after_guidance w s) /\
  search_posts_script.main w s = (inr tt, after_guidance w s) /\
  filter is_request (drop (length (trace s)) (trace (after_guidance w s)))
    = [].
Proof.
  intros Hraise.
  assert (H : load_config w s = (inr None, after_guidance w s)).
  { destruct (load_config_run w s) as [(config & Hf & _) | [_ H]];
      [|exact H].
    rewrite Hf in Hraise. discriminate. }
  unfold fetch_hot_posts.main, fetch_subreddit_stats.main,
    search_posts_script.main, bind.
  rewrite H. repeat (split; [reflexivity|]).
  simpl. rewrite drop_app_length. reflexivity.
Qed.

End Script_facts.

Lemma output_file_names_witness :
  Forall (fun path => path = "ask reddit_stats.json")
    (dump_paths (performed (fetch_subreddit_stats.main sample_world)
                   (boot credentials ["  ask reddit "]))) /\
  Forall (fun path => path = "python_search_coq_proof_assistant.json")
    (dump_paths (performed (search_posts_script.main sample_world)
                   (boot credentials [""; "coq proof assistant"]))).
Proof.
  split.
  - apply (proj1 (proj2 (output_file_names sample_world
                           (boot credentials ["  ask reddit "])))
             "  ask reddit " []).
    reflexivity.
  - apply (proj1 (proj2 (proj2 (output_file_names sample_world
                           (boot credentials [""; "coq proof assistant"])))
                    "" "coq proof assistant" [] eq_refl)).
Defined.

(** C9, as stated, fails: the statistics script, given the subreddit name
    "ask reddit", dumps to "ask reddit_stats.json"; the space of the name
    is kept, where the claim has "ask_reddit_stats.json". *)
Lemma stats_file_name_keeps_space :
  dump_paths (performed (fetch_subreddit_stats.main sample_world)
                (boot credentials ["ask reddit"]))
    = ["ask reddit_stats.json"] /\
  "ask reddit_stats.json" <> replace " " "_" "ask reddit" +:+ "_stats.json" /\
  no_space "ask reddit_stats.json" = false.
Proof.
  split; [vm_compute; reflexivity | split; [discriminate | reflexivity]].
Qed.

(** C5 (code defect).  On an empty batch the record returned by
    [get_subreddit_stats] has the count, the sums and the means, and no
    analyzed_time field; on a non-empty batch the field is there.  The
    statistics script reads the field from every record: on the empty
    batch that is a KeyError, and the script dumps nothing. *)
Theorem stats_timestamp_only_when_nonempty :
  (exists r s',
     get_subreddit_stats quiet_world sample_client "python" 100
       (boot credentials []) = (inr r, s') /\
     dom r = {[ "total_posts"; "total_score"; "total_comments";
                "average_score"; "average_comments" ]} /\
     r !! "analyzed_time" = None /\
     fst (print_items r ["analyzed_time"] s') = inl (KeyError "analyzed_time"))
  /\
  (exists r s',
     get_subreddit_stats sample_world sample_client "python" 100
       (boot credentials []) = (inr r, s') /\
     r !! "analyzed_time" = Some (VStr "2024-01-01T00:00:00"))
  /\
  dump_paths (performed (fetch_subreddit_stats.main quiet_world)
                (boot credentials ["python"])) = [].
Proof.
  split; [|split].
  - do 2 eexists. rewrite stats_empty_run by reflexivity.
    split; [reflexivity|]. split; [|split; reflexivity].
    vm_compute. reflexivity.
  - do 2 eexists. rewrite (stats_nonempty_run _ _ _ _ _ [link_post; self_post])
      by (reflexivity || discriminate).
    split; reflexivity.
  - vm_compute. reflexivity.
Qed.

(** * Further properties *)

(** ** config.py *)

(** X1.  The user agent of a loaded configuration is the value of
    REDDIT_USER_AGENT when the variable is set, even to the empty string,
    and "reddit-api-client/1.0" when it is not. *)
Theorem from_env_user_agent (w : World) (env_file : string) (s s' : state)
    (config : Config) :
  from_env w env_file s = (inr config, s') ->
  user_agent config =
    match loaded_environ w env_file s !! "REDDIT_USER_AGENT" with
    | Some agent => agent
    | None => "reddit-api-client/1.0"
    end.
Proof.
  intros H.
  destruct (opt_str_bool (loaded_environ w env_file s !! "REDDIT_CLIENT_ID"))
    eqn:Hi;
    [destruct (opt_str_bool
                 (loaded_environ w env_file s !! "REDDIT_CLIENT_SECRET"))
       eqn:Hc|].
  - apply opt_str_bool_true in Hi as (cid & Hi & Hine).
    apply opt_str_bool_true in Hc as (csec & Hc & Hcne).
    rewrite (from_env_returns w env_file s cid csec) in H by assumption.
    injection H as <- _. simpl.
    now destruct (loaded_environ w env_file s !! "REDDIT_USER_AGENT").
  - rewrite from_env_raises in H by auto. discriminate.
  - rewrite from_env_raises in H by auto. discriminate.
Qed.

Lemma from_env_user_agent_witness :
  user_agent (mkConfig "abc" "s3cret" "" None None) = "" /\
  user_agent sample_config = "reddit-api-client/1.0".
Proof.
  split.
  - exact (from_env_user_agent sample_world ".env"
             (boot (<["REDDIT_USER_AGENT" := ""]> credentials) [])
             (after_from_env sample_world ".env"
                (boot (<["REDDIT_USER_AGENT" := ""]> credentials) []))
             (mkConfig "abc" "s3cret" "" None None) eq_refl).
  - exact (from_env_user_agent sample_world ".env" (boot credentials [])
             (after_from_env sample_world ".env" (boot credentials []))
             sample_config eq_refl).
Defined.

(** X2.  A configuration loaded from the environment is authenticated exactly
    when REDDIT_USERNAME and REDDIT_PASSWORD are both set and not empty. *)
Theorem from_env_authenticated (w : World) (env_file : string) (s s' : state)
    (config : Config) :
  from_env w env_file s = (inr config, s') ->
  (is_authenticated config = true <->
   exists user pass,
     loaded_environ w env_file s !! "REDDIT_USERNAME" = Some user /\
     loaded_environ w env_file s !! "REDDIT_PASSWORD" = Some pass /\
     user <> "" /\ pass <> "").
Proof.
  intros H.
  assert (Hf : username config =
                 loaded_environ w env_file s !! "REDDIT_USERNAME" /\
               password config =
                 loaded_environ w env_file s !! "REDDIT_PASSWORD").
  { destruct (opt_str_bool
                (loaded_environ w env_file s !! "REDDIT_CLIENT_ID")) eqn:Hi;
      [destruct (opt_str_bool
                   (loaded_environ w env_file s !! "REDDIT_CLIENT_SECRET"))
         eqn:Hc|].
    - apply opt_str_bool_true in Hi as (cid & Hi & Hine).
      apply opt_str_bool_true in Hc as (csec & Hc & Hcne).
      rewrite (from_env_returns w env_file s cid csec) in H by assumption.
      injection H as <- _. split; reflexivity.
    - rewrite from_env_raises in H by auto. discriminate.
    - rewrite from_env_raises in H by auto. discriminate. }
  destruct Hf as [Hu Hp].
  rewrite is_authenticated_and, andb_true_iff, !opt_str_bool_true, Hu, Hp.
  split.
  - intros [(u & Hu' & Hune) (p & Hp' & Hpne)]. exists u, p. auto.
  - intros (u & p & Hu' & Hp' & Hune & Hpne). split; eauto.
Qed.

Lemma from_env_authenticated_witness :
  exists config,
    fst (from_env sample_world ".env" (boot login_environment []))
      = inr config /\
    is_authenticated config = true.
Proof.
  eexists. split; [reflexivity|].
  apply (from_env_authenticated sample_world ".env"
           (boot login_environment [])
           (after_from_env sample_world ".env" (boot login_environment []))).
  - reflexivity.
  - exists "alice", "hunter2". repeat split; discriminate.
Defined.

(** ** api_client.py: the client object *)

(** X3.  The session of a client is read-only whatever the configuration; the
    username and the password reach the library exactly when the
    configuration is authenticated, and otherwise neither does, even if
    one of them is set. *)
Theorem client_read_only (c : Config) :
  read_only (reddit (RedditClient_init c)) = true /\
  config (RedditClient_init c) = c /\
  r_client_id (reddit (RedditClient_init c)) = client_id c /\
  r_client_secret (reddit (RedditClient_init c)) = client_secret c /\
  r_user_agent (reddit (RedditClient_init c)) = user_agent c /\
  (is_authenticated c = true ->
   r_username (reddit (RedditClient_init c)) = username c /\
   r_password (reddit (RedditClient_init c)) = password c) /\
  (is_authenticated c = false ->
   r_username (reddit (RedditClient_init c)) = None /\
   r_password (reddit (RedditClient_init c)) = None).
Proof.
  unfold RedditClient_init.
  destruct (is_authenticated c); simpl; repeat split; congruence.
Qed.

Lemma client_read_only_witness :
  (r_username (reddit (RedditClient_init half_login)) = None /\
   r_password (reddit (RedditClient_init half_login)) = None) /\
  (r_username (reddit (RedditClient_init
                 (mkConfig "a" "b" "c" (Some "u") (Some "p")))) = Some "u" /\
   r_password (reddit (RedditClient_init
                 (mkConfig "a" "b" "c" (Some "u") (Some "p")))) = Some "p").
Proof.
  split.
  - apply (proj2 (proj2 (proj2 (proj2 (proj2 (proj2
             (client_read_only half_login))))))).
    reflexivity.
  - apply (proj1 (proj2 (proj2 (proj2 (proj2 (proj2
             (client_read_only
                (mkConfig "a" "b" "c" (Some "u") (Some "p"))))))))).
    reflexivity.
Defined.

(** ** api_client.py: the fetch methods *)





Lemma fetch_failures (w : World) (self : RedditClient)
    (s : state) (e : exception) :
  (forall name limit,
     praw_hot w name limit = inl e ->
     get_hot_posts w self name limit s = (inl e, push s [EvRequest "hot"]) /\
     get_subreddit_stats w self name limit s
       = (inl e, push s [EvRequest "hot"]))
  /\
  (forall name limit,
     praw_new w name limit = inl e ->
     get_new_posts w self name limit s = (inl e, push s [EvRequest "new"]))
  /\
  (forall name time_filter limit,
     praw_top w name time_filter limit = inl e ->
     get_top_posts w self name time_filter limit s
       = (inl e, push s [EvRequest "top"]))
  /\
  (forall name query sort time_filter limit,
     praw_search w name query sort time_filter limit = inl e ->
     search_posts w self name query sort time_filter limit s
       = (inl e, push s [EvRequest "search"]))
  /\
  (forall post_id limit,
     praw_comments_list w post_id (opt_int_bool limit) = inl e ->
     get_post_comments w self post_id limit s
       = (inl e, push s [EvRequest "comments"]))
  /\
  (forall name,
     praw_subreddit w name = inl e ->
     get_subreddit_info w self name s = (inl e, push s [EvRequest "about"])).
Proof.
  repeat split; intros;
    unfold get_subreddit_stats, get_hot_posts, get_new_posts, get_top_posts,
      search_posts, get_post_comments, get_subreddit_info, push;
    unfold_M; simpl;
    match goal with H : _ = inl e |- _ => rewrite H end;
    reflexivity.
Qed.


(** X5.  When the library raises, every method of the client raises the same
    exception, having sent its one request and done nothing else: no
    partial result, and for the statistics no division and no reading of
    the clock. *)
Theorem fetch_errors_propagate (w : World) (self : RedditClient)
    (s : state) (e : exception) :
  (forall name limit,
     praw_hot w name limit = inl e ->
     get_hot_posts w self name limit s = (inl e, push s [EvRequest "hot"]) /\
     get_subreddit_stats w self name limit s
       = (inl e, push s [EvRequest "hot"]))
  /\
  (forall name limit,
     praw_new w name limit = inl e ->
     get_new_posts w self name limit s = (inl e, push s [EvRequest "new"]))
  /\
  (forall name time_filter limit,
     praw_top w name time_filter limit = inl e ->
     get_top_posts w self name time_filter limit s
       = (inl e, push s [EvRequest "top"]))
  /\
  (forall name query sort time_filter limit,
     praw_search w name query sort time_filter limit = inl e ->
     search_posts w self name query sort time_filter limit s
       = (inl e, push s [EvRequest "search"]))
  /\
  (forall post_id limit,
     praw_comments_list w post_id (opt_int_bool limit) = inl e ->
     get_post_comments w self post_id limit s
       = (inl e, push s [EvRequest "comments"]))
  /\
  (forall name,
     praw_subreddit w name = inl e ->
     get_subreddit_info w self name s = (inl e, push s [EvRequest "about"])).
Proof. apply fetch_failures. Qed.

Lemma fetch_errors_propagate_witness :
  get_subreddit_stats offline_world sample_client "python" 100
    (boot credentials [])
  = (inl (LibraryError "offline"),
     push (boot credentials []) [EvRequest "hot"]) /\
  get_post_comments offline_world sample_client "p1" (Some 3)
    (boot credentials [])
  = (inl (LibraryError "offline"),
     push (boot credentials []) [EvRequest "comments"]).
Proof.
  split.
  - apply (proj1 (fetch_errors_propagate offline_world sample_client
                    (boot credentials []) (LibraryError "offline"))
             "python" 100).
    reflexivity.
  - apply (proj1 (proj2 (proj2 (proj2 (proj2
             (fetch_errors_propagate offline_world sample_client
                (boot credentials []) (LibraryError "offline"))))))
             "p1" (Some 3)).
    reflexivity.
Defined.

(** ** api_client.py: the shape of the records *)



(** ** api_client.py: comments under any limit *)





(** ** api_client.py: more on the statistics *)










(** ** The example scripts: running them *)

Lemma bind_run {A B} (m : M A) (k : A -> M B) (s s1 : state) (a : A) :
  m s = (inr a, s1) -> bind m k s = k a s1.
Proof. intros H. unfold bind. now rewrite H. Qed.

Lemma bind_raise {A B} (m : M A) (k : A -> M B) (s s1 : state)
    (e : exception) :
  m s = (inl e, s1) -> bind m k s = (inl e, s1).
Proof. intros H. unfold bind. now rewrite H. Qed.


Lemma try_except_caught {A} (body : M A) (handler : exception -> M A)
    (s s1 : state) (e : exception) :
  body s = (inl e, s1) -> try_except body handler s = handler e s1.
Proof. intros H. unfold try_except. now rewrite H. Qed.

Lemma push_push (s : state) (a b : list event) :
  push (push s a) b = push s (a ++ b).
Proof. unfold push. simpl. now rewrite <- app_assoc. Qed.


Lemma print_run (s : state) : print s = (inr tt, push s [EvPrint]).
Proof. reflexivity. Qed.










Lemma load_config_ok (w : World) (s : state) (config : Config) :
  fst (from_env w ".env" s) = inr config ->
  load_config w s = (inr (Some config), after_from_env w ".env" s).
Proof.
  intros H. destruct (load_config_run w s) as [(c & Hf & Hl) | [Hf _]];
    rewrite Hf in H; [|discriminate].
  injection H as <-. exact Hl.
Qed.

Lemma input_run (prompt line : string) (rest : list string) (s : state) :
  stdin s = line :: rest ->
  input prompt s = (inr line, consume s prompt).
Proof. intros H. unfold input, consume. now rewrite H. Qed.



Lemma performed_after_config {A} (m : M A) (w : World) (s : state)
    (r : exception + A) (evs : list event) :
  m s = (r, push (after_from_env w ".env" s) evs) ->
  performed m s = EvReadFile ".env" :: evs.
Proof.
  intros H. apply performed_app. rewrite H. simpl.
  now rewrite <- app_assoc.
Qed.

Lemma performed_after_input {A} (m : M A) (w : World) (s : state)
    (r : exception + A) (prompt : string) (evs : list event) :
  m s = (r, push (consume (after_from_env w ".env" s) prompt) evs) ->
  performed m s = EvReadFile ".env" :: EvInput prompt :: evs.
Proof.
  intros H. apply performed_app. rewrite H. simpl.
  now rewrite <- !app_assoc.
Qed.

Lemma performed_after_inputs {A} (m : M A) (w : World) (s : state)
    (r : exception + A) (prompt1 prompt2 : string) (evs : list event) :
  m s = (r, push (consume (consume (after_from_env w ".env" s) prompt1)
                          prompt2) evs) ->
  performed m s =
    EvReadFile ".env" :: EvInput prompt1 :: EvInput prompt2 :: evs.
Proof.
  intros H. apply performed_app. rewrite H. simpl.
  now rewrite <- !app_assoc.
Qed.

(** ** The hot-posts script *)



(** ** What the scripts can raise *)

Section Raise_logic.

Variable Q : exception -> Prop.

Lemma raises_returns {A} (m : M A) (s : state) (a : A) :
  fst (m s) = inr a -> raises_only Q m s.
Proof. intros H e He. rewrite H in He. discriminate. Qed.

Lemma raises_bind {A B} (m : M A) (k : A -> M B) (s : state) :
  raises_only Q m s ->
  (forall a s1, m s = (inr a, s1) -> raises_only Q (k a) s1) ->
  raises_only Q (bind m k) s.
Proof.
  intros Hm Hk e. unfold bind.
  destruct (m s) as [[e'|a] s1] eqn:E; simpl.
  - intros [= <-]. apply Hm. now rewrite E.
  - apply (Hk a s1 eq_refl).
Qed.

Lemma raises_try_except {A} (body : M A) (handler : exception -> M A)
    (s : state) :
  (forall e s1, raises_only Q (handler e) s1) ->
  raises_only Q (try_except body handler) s.
Proof.
  intros Hh e. unfold try_except.
  destruct (body s) as [[e'|a] s1]; simpl; [apply Hh | discriminate].
Qed.

Lemma raises_print (s : state) : raises_only Q print s.
Proof. now apply (raises_returns print s tt). Qed.

Lemma raises_load_config (w : World) (s : state) :
  raises_only Q (load_config w) s.
Proof.
  destruct (load_config_run w s) as [(c & _ & H) | [_ H]];
    eapply raises_returns; now rewrite H.
Qed.

End Raise_logic.

Lemma raises_input (prompt : string) (s : state) :
  raises_only (fun e => e = EOFError /\ stdin s = []) (input prompt) s.
Proof.
  intros e. unfold input. destruct (stdin s); simpl; [|discriminate].
  intros [= <-]. auto.
Qed.

Lemma raises_weaken (Q Q' : exception -> Prop) {A} (m : M A) (s : state) :
  (forall e, Q e -> Q' e) -> raises_only Q m s -> raises_only Q' m s.
Proof. intros HQ H e He. apply HQ, H, He. Qed.

(** X13.  The scripts catch every exception of the client.  The hot-posts
    script always ends normally.  The two interactive scripts end
    normally or raise EOFError, and only when standard input runs out of
    lines: none for the statistics script, fewer than two for the search
    script. *)
Theorem scripts_raise_only_eof (w : World) (s : state) :
  fst (fetch_hot_posts.main w s) = inr tt /\
  (forall e, fst (fetch_subreddit_stats.main w s) = inl e ->
             e = EOFError /\ stdin s = []) /\
  (forall e, fst (search_posts_script.main w s) = inl e ->
             e = EOFError /\ (length (stdin s) < 2)%nat).
Proof.
  split; [|split].
  - assert (H : raises_only (fun _ => False) (fetch_hot_posts.main w) s).
    { unfold fetch_hot_posts.main.
      apply raises_bind; [apply raises_load_config|].
      intros [config|] s1 _; [|now apply (raises_returns _ _ _ tt)].
      cbv zeta. apply raises_bind; [apply raises_print|]. intros _ s2 _.
      apply raises_try_except. intros. apply raises_print. }
    destruct (fst (fetch_hot_posts.main w s)) as [e|[]] eqn:E;
      [destruct (H e E) | reflexivity].
  - change (raises_only (fun e => e = EOFError /\ stdin s = [])
              (fetch_subreddit_stats.main w) s).
    unfold fetch_subreddit_stats.main.
    apply raises_bind; [apply raises_load_config|].
    intros [config|] s1 H1; [|now apply (raises_returns _ _ _ tt)].
    cbv zeta. apply load_config_stdin in H1.
    apply raises_bind.
    { eapply raises_weaken; [|apply raises_input].
      intros e [-> He]. split; [reflexivity | congruence]. }
    intros line s2 _.
    apply raises_bind; [apply raises_print|]. intros _ s3 _.
    apply raises_try_except. intros. apply raises_print.
  - change (raises_only (fun e => e = EOFError /\ (length (stdin s) < 2)%nat)
              (search_posts_script.main w) s).
    unfold search_posts_script.main.
    apply raises_bind; [apply raises_load_config|].
    intros [config|] s1 H1; [|now apply (raises_returns _ _ _ tt)].
    cbv zeta. apply load_config_stdin in H1.
    apply raises_bind.
    { eapply raises_weaken; [|apply raises_input].
      intros e [-> He]. split; [reflexivity|]. rewrite <- H1, He. simpl. lia. }
    intros line1 s2 H2. apply input_line in H2.
    apply raises_bind.
    { eapply raises_weaken; [|apply raises_input].
      intros e [-> He]. split; [reflexivity|].
      rewrite <- H1, H2, He. simpl. lia. }
    intros line2 s3 _.
    apply raises_bind; [apply raises_print|]. intros _ s4 _.
    apply raises_try_except. intros. apply raises_print.
Qed.

Lemma scripts_raise_only_eof_witness :
  fst (fetch_subreddit_stats.main sample_world (boot credentials []))
    = inl EOFError /\
  EOFError = EOFError /\ stdin (boot credentials []) = [].
Proof.
  split; [reflexivity|].
  apply (proj1 (proj2 (scripts_raise_only_eof sample_world
                         (boot credentials []))) EOFError).
  reflexivity.
Defined.

(** ** The search script *)



(** ** The statistics script *)





(** ** The scripts when the library fails *)

(** X16.  With a configuration that loads, when the library raises during a
    fetch the script prints the error and ends normally: nothing is
    written, and no further request is sent. *)
Theorem scripts_write_nothing_on_error (w : World) (s : state)
    (config : Config) (e : exception) :
  fst (from_env w ".env" s) = inr config ->
  (praw_hot w "python" 10 = inl e ->
   fst (fetch_hot_posts.main w s) = inr tt /\
   requests (performed (fetch_hot_posts.main w) s) = ["hot"] /\
   dumps (performed (fetch_hot_posts.main w) s) = [])
  /\
  (forall line rest,
     stdin s = line :: rest ->
     praw_subreddit w (str_or (strip line) "python") = inl e ->
     fst (fetch_subreddit_stats.main w s) = inr tt /\
     requests (performed (fetch_subreddit_stats.main w) s) = ["about"] /\
     dumps (performed (fetch_subreddit_stats.main w) s) = [])
  /\
  (forall line1 line2 rest,
     stdin s = line1 :: line2 :: rest ->
     praw_search w (str_or (strip line1) "python")
       (str_or (strip line2) "machine learning") "relevance" "all" 20
       = inl e ->
     fst (search_posts_script.main w s) = inr tt /\
     requests (performed (search_posts_script.main w) s) = ["search"] /\
     dumps (performed (search_posts_script.main w) s) = []).
Proof.
  intros Hconf. split; [|split].
  - intros Hhot.
    assert (Hrun : fetch_hot_posts.main w s =
              (inr tt, push (after_from_env w ".env" s)
                         [EvPrint; EvRequest "hot"; EvPrint])).
    { unfold fetch_hot_posts.main.
      rewrite (bind_run _ _ _ _ _ (load_config_ok w s config Hconf)).
      cbv zeta. rewrite (bind_run _ _ _ _ _ (print_run _)).
      erewrite try_except_caught.
      2:{ apply bind_raise.
          apply (proj1 (fetch_failures w _ _ e)). exact Hhot. }
      rewrite print_run, !push_push. reflexivity. }
    split; [now rewrite Hrun|].
    rewrite (performed_after_config _ w s _ _ Hrun). split; reflexivity.
  - intros line rest Hin Hsub.
    assert (Hrun : fetch_subreddit_stats.main w s =
              (inr tt,
               push (consume (after_from_env w ".env" s)
                       "Enter subreddit name (without r/): ")
                    [EvPrint; EvRequest "about"; EvPrint])).
    { unfold fetch_subreddit_stats.main.
      rewrite (bind_run _ _ _ _ _ (load_config_ok w s config Hconf)).
      cbv zeta.
      rewrite (bind_run _ _ _ _ _
                 (input_run _ line rest (after_from_env w ".env" s) Hin)).
      rewrite (bind_run _ _ _ _ _ (print_run _)).
      erewrite try_except_caught.
      2:{ apply bind_raise.
          apply (proj2 (proj2 (proj2 (proj2 (proj2
                   (fetch_failures w _ _ e)))))). exact Hsub. }
      rewrite print_run, !push_push. reflexivity. }
    split; [now rewrite Hrun|].
    rewrite (performed_after_input _ w s _ _ _ Hrun). split; reflexivity.
  - intros line1 line2 rest Hin Hsearch.
    assert (Hrun : search_posts_script.main w s =
              (inr tt,
               push (consume (consume (after_from_env w ".env" s)
                                "Enter subreddit name (without r/): ")
                       "Enter search query: ")
                    [EvPrint; EvRequest "search"; EvPrint])).
    { unfold search_posts_script.main.
      rewrite (bind_run _ _ _ _ _ (load_config_ok w s config Hconf)).
      cbv zeta.
      rewrite (bind_run _ _ _ _ _
                 (input_run _ line1 (line2 :: rest)
                    (after_from_env w ".env" s) Hin)).
      erewrite bind_run
        by (apply (input_run _ line2 rest); simpl; now rewrite Hin).
      rewrite (bind_run _ _ _ _ _ (print_run _)).
      erewrite try_except_caught.
      2:{ apply bind_raise.
          apply (proj1 (proj2 (proj2 (proj2
                   (fetch_failures w _ _ e))))). exact Hsearch. }
      rewrite print_run, !push_push. reflexivity. }
    split; [now rewrite Hrun|].
    rewrite (performed_after_inputs _ w s _ _ _ _ Hrun). split; reflexivity.
Qed.

Lemma scripts_write_nothing_on_error_witness :
  fst (fetch_hot_posts.main offline_world (boot credentials [])) = inr tt /\
  requests (performed (fetch_hot_posts.main offline_world)
              (boot credentials [])) = ["hot"] /\
  dumps (performed (fetch_hot_posts.main offline_world)
           (boot credentials [])) = [].
Proof.
  apply (proj1 (scripts_write_nothing_on_error offline_world
                  (boot credentials []) sample_config
                  (LibraryError "offline") eq_refl)).
  reflexivity.
Defined.

(** ** The scripts without credentials *)

(** X17.  When the configuration cannot be loaded, each script prints its five
    lines of guidance and returns normally, in the same final state: it
    reads no input, sends no request and writes no file. *)
Theorem scripts_stop_without_credentials (w : World) (s : state) :
  fst (from_env w ".env" s) = inl (ValueError missing_message) ->
  fetch_hot_posts.main w s = (inr tt, after_guidance w s) /\
  fetch_subreddit_stats.main w s = (inr tt, after_guidance w s) /\
  search_posts_script.main w s = (inr tt, after_guidance w s) /\
  stdin (after_guidance w s) = stdin s /\
  performed (fetch_hot_posts.main w) s =
    [EvReadFile ".env"; EvPrint; EvPrint; EvPrint; EvPrint; EvPrint].
Proof.
  intros Hraise.
  destruct (scripts_without_credentials w s Hraise) as (H1 & H2 & H3 & _).
  repeat split; try assumption.
  apply performed_app. now rewrite H1.
Qed.

Lemma scripts_stop_without_credentials_witness :
  search_posts_script.main sample_world (boot empty_id ["x"; "y"])
  = (inr tt, after_guidance sample_world (boot empty_id ["x"; "y"])).
Proof.
  apply (scripts_stop_without_credentials sample_world
           (boot empty_id ["x"; "y"])).
  reflexivity.
Defined.

(** ** File names and subreddit names *)

Lemma no_space_app (a b : string) :
  no_space (a +:+ b) = no_space a && no_space b.
Proof.
  induction a as [|c a IH]; simpl; [reflexivity|].
  change (String c a +:+ b) with (String c (a +:+ b)). simpl.
  now rewrite IH, andb_assoc.
Qed.

Lemma replace_without_space (s : string) :
  no_space s = true -> replace " " "_" s = s.
Proof.
  induction s as [|c s IH]; simpl; [reflexivity|].
  intros H. apply andb_true_iff in H as [Hc Hs].
  apply negb_true_iff in Hc. rewrite Hc, IH by exact Hs. reflexivity.
Qed.

(** X18.  The output file name of a script has a space exactly when the
    subreddit name has one: the query of the search script never brings
    one in, and a query without spaces appears in the name unchanged. *)
Theorem output_file_spaces (subreddit_name query : string) :
  no_space (fetch_hot_posts.output_file subreddit_name)
    = no_space subreddit_name /\
  no_space (fetch_subreddit_stats.output_file subreddit_name)
    = no_space subreddit_name /\
  no_space (search_posts_script.output_file subreddit_name query)
    = no_space subreddit_name /\
  (no_space query = true ->
   search_posts_script.output_file subreddit_name query
     = subreddit_name +:+ "_search_" +:+ query +:+ ".json").
Proof.
  unfold fetch_hot_posts.output_file, fetch_subreddit_stats.output_file,
    search_posts_script.output_file.
  repeat split.
  - rewrite no_space_app. simpl. apply andb_true_r.
  - rewrite no_space_app. simpl. apply andb_true_r.
  - rewrite !no_space_app, replace_no_space. simpl. apply andb_true_r.
  - intros H. now rewrite replace_without_space.
Qed.

Lemma output_file_spaces_witness :
  search_posts_script.output_file "python" "coq"
    = "python" +:+ "_search_" +:+ "coq" +:+ ".json".
Proof.
  apply (proj2 (proj2 (proj2 (output_file_spaces "python" "coq")))).
  reflexivity.
Defined.

Lemma lstrip_head (s : string) :
  match head_char (lstrip s) with
  | Some c => isspace c = false
  | None => True
  end.
Proof.
  induction s as [|c s IH]; simpl; [exact I|].
  destruct (isspace c) eqn:E; [exact IH | exact E].
Qed.

Lemma lstrip_all_space (s : string) : all_space s = true -> lstrip s = "".
Proof.
  induction s as [|c s IH]; simpl; [reflexivity|].
  intros H. apply andb_true_iff in H as [-> Hs]. now apply IH.
Qed.

Lemma last_char_rev_app (s acc : string) :
  last_char (String.rev_app s acc) =
    match acc with
    | EmptyString => head_char s
    | String _ _ => last_char acc
    end.
Proof.
  revert acc. induction s as [|c s IH]; intros acc; simpl.
  - now destruct acc.
  - rewrite IH. simpl. now destruct acc.
Qed.

Lemma last_char_nonempty (s : string) : last_char s = None -> s = "".
Proof.
  induction s as [|c s IH]; [reflexivity|]. simpl.
  destruct s; [discriminate|]. intros H. apply IH in H. discriminate.
Qed.

Lemma head_char_rev_app (s acc : string) :
  head_char (String.rev_app s acc) =
    match last_char s with
    | Some c => Some c
    | None => head_char acc
    end.
Proof.
  revert acc. induction s as [|c s IH]; intros acc; simpl; [reflexivity|].
  rewrite IH. destruct s as [|a s']; [reflexivity|].
  destruct (last_char (String a s')) eqn:E; [reflexivity|].
  apply last_char_nonempty in E. discriminate.
Qed.

(** [lstrip] drops a prefix only: the last character stays, unless
    everything goes. *)
Lemma lstrip_last (s : string) :
  lstrip s = "" \/ last_char (lstrip s) = last_char s.
Proof.
  induction s as [|c s IH]; simpl; [now left|].
  destruct (isspace c); [|now right].
  destruct IH as [IH|IH]; [now left|].
  destruct s as [|a s']; [now left|]. right. rewrite IH. reflexivity.
Qed.

(** X19.  The subreddit name that the interactive scripts derive from a line is
    never empty and neither starts nor ends with white space; it is
    "python" when the line is blank, and the stripped line otherwise. *)
Theorem subreddit_name_of_line (line : string) :
  subreddit_name_of line <> "" /\
  (exists first, head_char (subreddit_name_of line) = Some first /\
                 isspace first = false) /\
  (exists final, last_char (subreddit_name_of line) = Some final /\
                 isspace final = false) /\
  (all_space line = true -> subreddit_name_of line = "python") /\
  (strip line <> "" -> subreddit_name_of line = strip line).
Proof.
  unfold subreddit_name_of, str_or.
  assert (Hlast : match last_char (strip line) with
                  | Some c => isspace c = false
                  | None => True
                  end).
  { unfold strip, rstrip, String.rev. rewrite last_char_rev_app.
    apply lstrip_head. }
  assert (Hhead : match head_char (strip line) with
                  | Some c => isspace c = false
                  | None => True
                  end).
  { pose proof (lstrip_head line) as Hl.
    unfold strip, rstrip, String.rev. rewrite head_char_rev_app.
    destruct (lstrip_last (String.rev_app (lstrip line) "")) as [E|E].
    - rewrite E. exact I.
    - rewrite E, last_char_rev_app.
      destruct (head_char (lstrip line)) as [c|] eqn:Hc; [exact Hl|].
      destruct (lstrip line); [exact I | discriminate]. }
  destruct (str_bool (strip line)) eqn:Hb.
  - apply str_bool_true in Hb. split; [|split; [|split; [|split]]].
    + exact Hb.
    + destruct (head_char (strip line)) as [c|] eqn:Hc; [eauto|].
      destruct (strip line); [congruence | discriminate].
    + destruct (last_char (strip line)) as [c|] eqn:Hc; [eauto|].
      apply last_char_nonempty in Hc. congruence.
    + intros Hsp. exfalso. apply Hb. unfold strip.
      now rewrite (lstrip_all_space line Hsp).
    + reflexivity.
  - apply str_bool_false in Hb. split; [|split; [|split; [|split]]].
    + discriminate.
    + exists "p"%char. split; reflexivity.
    + exists "n"%char. split; reflexivity.
    + reflexivity.
    + congruence.
Qed.

Lemma subreddit_name_of_line_witness :
  subreddit_name_of "   " = "python" /\
  subreddit_name_of "  ask reddit " = strip "  ask reddit ".
Proof.
  split.
  - apply (proj1 (proj2 (proj2 (proj2 (subreddit_name_of_line "   "))))).
    reflexivity.
  - apply (proj2 (proj2 (proj2 (proj2
             (subreddit_name_of_line "  ask reddit "))))).
    discriminate.
Defined.
